(** * The Sphinx build configuration [conf.py]

    [conf.py] is a Python module made of top-level assignments of literals.
    The documentation builder executes it in a namespace it has prepared
    and then reads the settings it knows from that namespace.  The module is
    embedded as the sequence of its assignments, executed by explicit state
    passing over a namespace. *)

From Stdlib Require Import String Ascii List Bool Arith Lia.
From stdpp Require Import base option list strings gmap fin_maps.

Set Warnings "-register-all".

Open Scope string_scope.

(** ** Python values and module execution *)

Module Py.

(** The literals that occur on the right-hand sides of [conf.py]. A dict
    literal keeps its items in source order. *)
Inductive value : Type :=
| VNone
| VBool (b : bool)
| VStr (s : string)
| VList (xs : list value)
| VTuple (xs : list value)
| VDict (items : list (string * value)).

(** A right-hand side is evaluated in the namespace as it stands when the
    statement runs; a literal ignores it. *)
Definition expr : Type := gmap string value -> value.

Definition lit (v : value) : expr := fun _ => v.

(** One statement [name = rhs]. *)
Definition stmt : Type := string * expr.

(** An assignment (re)binds its name to the value of its right-hand side. *)
Definition assign (ns : gmap string value) (st : stmt) : gmap string value :=
  <[st.1 := st.2 ns]> ns.

(** A module body runs its statements from top to bottom. What the
    interpreter itself puts into a namespace before it runs a body (the
    name [__builtins__]) belongs to the namespace the body is given. *)
Definition exec (body : list stmt) (ns : gmap string value) : gmap string value :=
  foldl assign ns body.

(** The right-hand side of the last assignment a body makes to a name. *)
Fixpoint last_assigned (name : string) (body : list stmt) : option expr :=
  match body with
  | [] => None
  | st :: rest =>
      match last_assigned name rest with
      | Some e => Some e
      | None => if String.eqb st.1 name then Some st.2 else None
      end
  end.

(** A right-hand side that reads nothing from the namespace. *)
Definition constant (e : expr) : Prop := forall ns1 ns2, e ns1 = e ns2.

(** Readers, by the shape the builder expects of a setting. *)
Definition as_str (v : value) : option string :=
  match v with VStr s => Some s | _ => None end.

Definition as_opt_str (v : value) : option (option string) :=
  match v with
  | VNone => Some None
  | VStr s => Some (Some s)
  | _ => None
  end.

Definition as_str_list (v : value) : option (list string) :=
  match v with
  | VList xs => mapM as_str xs
  | _ => None
  end.

Definition as_pair {A B} (fa : value -> option A) (fb : value -> option B)
    (v : value) : option (A * B) :=
  match v with
  | VTuple [a; b] =>
      match fa a, fb b with
      | Some x, Some y => Some (x, y)
      | _, _ => None
      end
  | _ => None
  end.

(** A dict literal with a repeated key keeps the last item. *)
Definition as_dict {A} (f : value -> option A) (v : value)
    : option (gmap string A) :=
  match v with
  | VDict items =>
      foldl (fun acc kv =>
               match acc, f kv.2 with
               | Some m, Some x => Some (<[kv.1 := x]> m)
               | _, _ => None
               end) (Some ∅) items
  | _ => None
  end.

End Py.

Import Py.

(** ** The module body, statement by statement *)

Definition conf : list stmt :=
  [ ("project", lit (VStr "Model Context Protocol (MCP) Python SDK"));
    ("copyright", lit (VStr "2023, Model Context Protocol"));
    ("author", lit (VStr "Model Context Protocol"));
    ("extensions",
       lit (VList [ VStr "sphinx.ext.autodoc";
                    VStr "sphinx.ext.viewcode";
                    VStr "sphinx.ext.napoleon" ]));
    ("templates_path", lit (VList [ VStr "_templates" ]));
    ("exclude_patterns",
       lit (VList [ VStr "_build"; VStr "Thumbs.db"; VStr ".DS_Store" ]));
    ("html_theme", lit (VStr "sphinx_rtd_theme"));
    ("html_static_path", lit (VList [ VStr "_static" ]));
    ("html_use_directory_rtd_theme", lit (VBool true));
    ("html_extra_path", lit (VList [ VStr ".nojekyll" ]));
    ("master_doc", lit (VStr "index"));
    ("html_copy_source", lit (VBool false));
    ("html_baseurl", lit (VStr "/mcp_docs/"));
    ("html_css_files", lit (VList [ VStr "custom.css" ]));
    ("extlinks",
       lit (VDict
         [ ("github",
              VTuple [ VStr "https://github.com/modelcontextprotocol/python-sdk/blob/main/%s";
                       VStr "%s" ]);
           ("spec",
              VTuple [ VStr "https://modelcontextprotocol.io/%s"; VStr "%s" ]) ]));
    ("intersphinx_mapping",
       lit (VDict
         [ ("python", VTuple [ VStr "https://docs.python.org/3"; VNone ]);
           ("starlette", VTuple [ VStr "https://www.starlette.io/"; VNone ]) ])) ].

(** ** The configuration read by the builder *)

Record BuildConfig : Type := {
  project : string;
  copyright : string;
  author : string;
  extensions : list string;
  templates_path : list string;
  html_static_path : list string;
  html_extra_path : list string;
  exclude_patterns : list string;
  html_theme : string;
  html_baseurl : string;
  html_css_files : list string;
  extlinks : gmap string (string * string);
  intersphinx_mapping : gmap string (string * option string)
}.


Definition read {A} (ns : gmap string value) (name : string)
    (f : value -> option A) : option A :=
  ns !! name ≫= f.

(** Reading the settings out of a namespace fails as soon as one of them is
    absent or ill-shaped. *)
Definition read_config (ns : gmap string value) : option BuildConfig :=
  p ← read ns "project" as_str;
  c ← read ns "copyright" as_str;
  a ← read ns "author" as_str;
  e ← read ns "extensions" as_str_list;
  t ← read ns "templates_path" as_str_list;
  s ← read ns "html_static_path" as_str_list;
  x ← read ns "html_extra_path" as_str_list;
  g ← read ns "exclude_patterns" as_str_list;
  h ← read ns "html_theme" as_str;
  b ← read ns "html_baseurl" as_str;
  f ← read ns "html_css_files" as_str_list;
  l ← read ns "extlinks" (as_dict (as_pair as_str as_str));
  i ← read ns "intersphinx_mapping" (as_dict (as_pair as_str as_opt_str));
  Some {| project := p; copyright := c; author := a; extensions := e;
          templates_path := t; html_static_path := s; html_extra_path := x;
          exclude_patterns := g; html_theme := h; html_baseurl := b;
          html_css_files := f; extlinks := l; intersphinx_mapping := i |}.

(** Loading: execute the module in the namespace prepared by the builder,
    then read the settings. *)
Definition load (ns0 : gmap string value) : option BuildConfig :=
  read_config (exec conf ns0).

(** The configuration the module describes, field by field. *)
Definition build_config : BuildConfig :=
  {| project := "Model Context Protocol (MCP) Python SDK";
     copyright := "2023, Model Context Protocol";
     author := "Model Context Protocol";
     extensions :=
       [ "sphinx.ext.autodoc"; "sphinx.ext.viewcode"; "sphinx.ext.napoleon" ];
     templates_path := [ "_templates" ];
     html_static_path := [ "_static" ];
     html_extra_path := [ ".nojekyll" ];
     exclude_patterns := [ "_build"; "Thumbs.db"; ".DS_Store" ];
     html_theme := "sphinx_rtd_theme";
     html_baseurl := "/mcp_docs/";
     html_css_files := [ "custom.css" ];
     extlinks :=
       <["spec" := ("https://modelcontextprotocol.io/%s", "%s")]>
         (<["github" :=
              ("https://github.com/modelcontextprotocol/python-sdk/blob/main/%s",
               "%s")]> ∅);
     intersphinx_mapping :=
       <["starlette" := ("https://www.starlette.io/", None)]>
         (<["python" := ("https://docs.python.org/3", None)]> ∅) |}.

(** ** What the builder does with the settings

    The builder itself is not part of this repository.  The operations below
    are the ones the specification names for it. *)

Module Template.

Definition is_percent (c : ascii) : bool := Ascii.eqb c "%".
Definition is_s (c : ascii) : bool := Ascii.eqb c "s".

(** Number of substitution placeholders [%s] in a template, scanning from
    the left. *)
Fixpoint placeholders (t : string) : nat :=
  match t with
  | EmptyString => 0
  | String c t' =>
      match t' with
      | EmptyString => 0
      | String d rest =>
          if is_percent c && is_s d then S (placeholders rest)
          else placeholders t'
      end
  end.

(** The template with its leftmost placeholder replaced by the argument. *)
Fixpoint substitute (t arg : string) : string :=
  match t with
  | EmptyString => EmptyString
  | String c t' =>
      match t' with
      | EmptyString => String c EmptyString
      | String d rest =>
          if is_percent c && is_s d then arg ++ rest
          else String c (substitute t' arg)
      end
  end.

(** Modelled from the spec: the builder's expansion of a link template,
    which is not in this repository. A template holds a single
    substitution placeholder, which the argument replaces; any other
    number of placeholders is a LinkTemplateError. The spec gives templates
    no other syntax than the placeholder, so every other character stands
    for itself. *)
Definition expand (t arg : string) : option string :=
  if Nat.eqb (placeholders t) 1 then Some (substitute t arg) else None.

(** Modelled from the spec: the builder's resolution of a reference
    [:tag:`arg`], which is not in this repository: the URL and the display
    label are the two templates of the tag, expanded with the argument. *)
Definition resolve (links : gmap string (string * string))
    (tag arg : string) : option (string * string) :=
  '(url_template, label_template) ← links !! tag;
  url ← expand url_template arg;
  label ← expand label_template arg;
  Some (url, label).

End Template.

Module Intersphinx.

(** Modelled from the spec: where the builder fetches the inventory of a
    mapped project, which is not in this repository. Without an inventory
    path it is [objects.inv] under the base URL. *)
Definition inventory_url (entry : string * option string) : string :=
  match entry.2 with
  | None => entry.1 ++ "/objects.inv"
  | Some path => path
  end.

End Intersphinx.

Module Glob.

Definition is_sep (c : ascii) : bool := Ascii.eqb c "/".

(** Modelled from the spec: matching of a glob pattern against a path
    relative to the configuration's directory, which the builder does and
    is not in this repository. The whole path must match; [*] stands for
    any run of characters within one path component, [?] for one such
    character, anything else for itself. *)
Fixpoint matches (p : string) : string -> bool :=
  match p with
  | EmptyString => fun s => match s with EmptyString => true | _ => false end
  | String c p' =>
      if Ascii.eqb c "*" then
        fix star (s : string) : bool :=
          matches p' s
          || match s with
             | EmptyString => false
             | String d s' => negb (is_sep d) && star s'
             end
      else if Ascii.eqb c "?" then
        fun s =>
          match s with
          | EmptyString => false
          | String d s' => negb (is_sep d) && matches p' s'
          end
      else
        fun s =>
          match s with
          | EmptyString => false
          | String d s' => Ascii.eqb c d && matches p' s'
          end
  end.

(** The directories above a path: its prefixes that end before a
    separator. *)
Fixpoint ancestors (s : string) : list string :=
  match s with
  | EmptyString => []
  | String c s' =>
      ((if is_sep c then [EmptyString] else [])
         ++ map (String c) (ancestors s'))%list
  end.

(** A pattern excludes a path that it matches, and everything under a
    directory that it matches. *)
Definition excludes (p path : string) : bool :=
  matches p path || existsb (matches p) (ancestors path).

End Glob.

Module Url.

Definition between (lo hi c : ascii) : bool :=
  Nat.leb (nat_of_ascii lo) (nat_of_ascii c)
  && Nat.leb (nat_of_ascii c) (nat_of_ascii hi).

Definition one_of (cs : string) (c : ascii) : bool :=
  existsb (Ascii.eqb c) (list_ascii_of_string cs).

Definition alpha (c : ascii) : bool := between "a" "z" c || between "A" "Z" c.
Definition digit (c : ascii) : bool := between "0" "9" c.
Definition unreserved (c : ascii) : bool := alpha c || digit c || one_of "-._~" c.
Definition sub_delim (c : ascii) : bool := one_of "!$&'()*+,;=" c.
Definition scheme_char (c : ascii) : bool := alpha c || digit c || one_of "+-." c.
Definition hexdig (c : ascii) : bool :=
  digit c || between "a" "f" c || between "A" "F" c.
Definition host_char (c : ascii) : bool := unreserved c || sub_delim c.
Definition path_char (c : ascii) : bool :=
  unreserved c || sub_delim c || one_of ":@/" c.

(** The components in which a percent-encoded octet may stand. *)
Inductive part : Type := InHost | InPath | InQuery | InFragment.

(** Where the scan of [scheme://host[:port][/path][?query][#fragment]]
    stands. [Escape1] and [Escape2] await the first and the second
    hexadecimal digit of a percent-encoded octet. *)
Inductive state : Type :=
| Start | Scheme | Colon | Slash | Host0 | Host | Port | Path | Query
| Fragment | Escape1 (p : part) | Escape2 (p : part) | Reject.

Definition resume (p : part) : state :=
  match p with
  | InHost => Host
  | InPath => Path
  | InQuery => Query
  | InFragment => Fragment
  end.

Definition step (st : state) (c : ascii) : state :=
  match st with
  | Start => if alpha c then Scheme else Reject
  | Scheme =>
      if Ascii.eqb c ":" then Colon
      else if scheme_char c then Scheme else Reject
  | Colon => if Ascii.eqb c "/" then Slash else Reject
  | Slash => if Ascii.eqb c "/" then Host0 else Reject
  | Host0 =>
      if Ascii.eqb c "%" then Escape1 InHost
      else if host_char c then Host else Reject
  | Host =>
      if Ascii.eqb c "/" then Path
      else if Ascii.eqb c "?" then Query
      else if Ascii.eqb c "#" then Fragment
      else if Ascii.eqb c ":" then Port
      else if Ascii.eqb c "%" then Escape1 InHost
      else if host_char c then Host else Reject
  | Port =>
      if Ascii.eqb c "/" then Path
      else if Ascii.eqb c "?" then Query
      else if Ascii.eqb c "#" then Fragment
      else if digit c then Port else Reject
  | Path =>
      if Ascii.eqb c "?" then Query
      else if Ascii.eqb c "#" then Fragment
      else if Ascii.eqb c "%" then Escape1 InPath
      else if path_char c then Path else Reject
  | Query =>
      if Ascii.eqb c "#" then Fragment
      else if Ascii.eqb c "%" then Escape1 InQuery
      else if path_char c || Ascii.eqb c "?" then Query else Reject
  | Fragment =>
      if Ascii.eqb c "%" then Escape1 InFragment
      else if path_char c || Ascii.eqb c "?" then Fragment else Reject
  | Escape1 p => if hexdig c then Escape2 p else Reject
  | Escape2 p => if hexdig c then resume p else Reject
  | Reject => Reject
  end.

Definition accepting (st : state) : bool :=
  match st with
  | Host | Port | Path | Query | Fragment => true
  | _ => false
  end.

(** Modelled from the spec: syntactic validity of a URL string, as an
    absolute URL of a hierarchical scheme in the generic syntax of
    RFC 3986: a scheme, [://], a non-empty registered-name host, an
    optional numeric port, then optional path, query and fragment; a
    percent sign is valid only before two hexadecimal digits. *)
Definition valid (u : string) : bool :=
  accepting (fold_left step (list_ascii_of_string u) Start).

End Url.

Module Capability.

(** The capabilities the specification lists for the extension list. *)
Inductive t : Type :=
| ApiDocsFromSourceComments
| SourceCodeLinks
| StructuredDocstrings.

(** The identifier under which the builder knows each of them. *)
Definition identifier (c : t) : string :=
  match c with
  | ApiDocsFromSourceComments => "sphinx.ext.autodoc"
  | SourceCodeLinks => "sphinx.ext.viewcode"
  | StructuredDocstrings => "sphinx.ext.napoleon"
  end.

End Capability.



(** A pattern without wildcard characters. *)
Definition literal_pattern (p : string) : bool :=
  forallb (fun c => negb (Ascii.eqb c "*") && negb (Ascii.eqb c "?"))
    (list_ascii_of_string p).

(** Whether some pattern of a list excludes a path. *)
Definition excluded_by (patterns : list string) (path : string) : bool :=
  existsb (fun p => Glob.excludes p path) patterns.

(** * Properties *)

(** ** Execution of a module body *)

Section Execution.

Implicit Types (body : list stmt) (ns : gmap string value) (name : string).

Lemma exec_cons st body ns : exec (st :: body) ns = exec body (assign ns st).
Proof. reflexivity. Qed.

Lemma constant_lit v : constant (lit v).
Proof. intros ns1 ns2. reflexivity. Qed.

(** After a body of constant right-hand sides, a name holds what its last
    assignment gave it, or what it held before when the body leaves it
    alone. *)
Lemma exec_lookup body :
  Forall (fun st => constant st.2) body ->
  forall ns name,
    exec body ns !! name
    = match last_assigned name body with
      | Some e => Some (e ∅)
      | None => ns !! name
      end.
Proof.
  induction 1 as [|st rest Hst _ IH]; intros ns name; [reflexivity|].
  rewrite exec_cons, IH. simpl.
  destruct (last_assigned name rest) as [e|]; [reflexivity|].
  unfold assign.
  destruct (String.eqb_spec st.1 name) as [->|Hne].
  - rewrite lookup_insert_eq. f_equal. apply Hst.
  - rewrite lookup_insert_ne by exact Hne. reflexivity.
Qed.

(** Running such a body again on its own result changes nothing. *)
Lemma exec_idempotent body :
  Forall (fun st => constant st.2) body ->
  forall ns, exec body (exec body ns) = exec body ns.
Proof.
  intros Hc ns. apply map_eq. intros name.
  rewrite !(exec_lookup body Hc).
  destruct (last_assigned name body); reflexivity.
Qed.

Lemma last_assigned_elem body name e :
  last_assigned name body = Some e -> name ∈ map fst body.
Proof.
  induction body as [|st rest IH]; simpl; [discriminate|].
  destruct (last_assigned name rest) as [e0|].
  - intros H. apply elem_of_cons. right. apply IH. exact H.
  - destruct (String.eqb_spec st.1 name) as [<-|_]; [|discriminate].
    intros _. apply elem_of_cons. left. reflexivity.
Qed.

(** When no name is assigned twice, each statement is the last assignment
    to its name. *)
Lemma last_assigned_unique body name e :
  NoDup (map fst body) -> In (name, e) body ->
  last_assigned name body = Some e.
Proof.
  induction body as [|[k e'] rest IH]; simpl; [tauto|].
  intros Hnd Hin. apply NoDup_cons in Hnd as [Hk Hnd].
  destruct Hin as [[= -> ->]|Hin].
  - destruct (last_assigned name rest) as [e0|] eqn:Hl.
    + exfalso. apply Hk. eapply last_assigned_elem. exact Hl.
    + rewrite String.eqb_refl. reflexivity.
  - rewrite (IH Hnd Hin). reflexivity.
Qed.

(** The last assignment to a name is one of the statements. *)
Lemma last_assigned_In body name e :
  last_assigned name body = Some e -> In (name, e) body.
Proof.
  induction body as [|[k e'] rest IH]; simpl; [discriminate|].
  destruct (last_assigned name rest) as [e0|].
  - intros [= <-]. right. apply IH. reflexivity.
  - destruct (String.eqb_spec k name) as [->|_]; [|discriminate].
    intros [= <-]. left. reflexivity.
Qed.

End Execution.

Lemma conf_constant : Forall (fun st => constant st.2) conf.
Proof. unfold conf. repeat (constructor; [apply constant_lit|]). constructor. Qed.

Lemma conf_NoDup : NoDup (map fst conf).
Proof.
  unfold conf. simpl.
  repeat (apply NoDup_cons; split; [intros Hin; repeat (apply elem_of_cons in Hin as [Hin|Hin]; [discriminate Hin|]); inversion Hin|]).
  apply NoDup_nil. exact I.
Qed.

(** Whatever the namespace the builder prepared, loading returns
    [build_config]. *)
Lemma load_eq ns0 : load ns0 = Some build_config.
Proof.
  unfold load, read_config, read.
  rewrite !(exec_lookup conf conf_constant).
  vm_compute. reflexivity.
Qed.

(** The same, on the namespace the module leaves. *)
Lemma read_config_exec_conf ns0 :
  read_config (exec conf ns0) = Some build_config.
Proof.
  unfold read_config, read.
  rewrite !(exec_lookup conf conf_constant).
  vm_compute. reflexivity.
Qed.





(** ** The load operation *)



(** C9. Loading twice yields the same configuration: two loads return equal
    configurations whatever the namespaces they start from, in particular
    when the second load runs in the namespace the first one left, which it
    leaves unchanged. *)
Theorem load_twice_identical :
  (forall ns1 ns2, load ns1 = load ns2 /\ is_Some (load ns1))
  /\ (forall ns, exec conf (exec conf ns) = exec conf ns)
  /\ (forall ns, load (exec conf ns) = load ns).
Proof.
  split; [|split].
  - intros ns1 ns2. rewrite !load_eq. split; [reflexivity|eexists; reflexivity].
  - intros ns. apply exec_idempotent, conf_constant.
  - intros ns. rewrite !load_eq. reflexivity.
Qed.

(** ** Link templates *)

Section Templates.

Import Template.

Lemma append_empty_r (s : string) : s ++ "" = s.
Proof.
  induction s as [|c s IH]; [reflexivity|].
  change (String c (s ++ "") = String c s). rewrite IH. reflexivity.
Qed.

Lemma placeholders_cons c d rest :
  placeholders (String c (String d rest))
  = if is_percent c && is_s d then S (placeholders rest)
    else placeholders (String d rest).
Proof. reflexivity. Qed.

Lemma substitute_cons c d rest arg :
  substitute (String c (String d rest)) arg
  = if is_percent c && is_s d then arg ++ rest
    else String c (substitute (String d rest) arg).
Proof. reflexivity. Qed.

(** A template that ends in a placeholder has at least that one. *)
Lemma placeholders_suffix p : 1 <= placeholders (p ++ "%s").
Proof.
  induction p as [|c p IH]; [vm_compute; lia|].
  destruct p as [|d p].
  - change (String c "" ++ "%s") with (String c (String "%" "s")).
    rewrite placeholders_cons.
    replace (is_s "%") with false by reflexivity.
    rewrite andb_false_r. simpl. lia.
  - change (String c (String d p) ++ "%s")
      with (String c (String d (p ++ "%s"))).
    rewrite placeholders_cons.
    destruct (is_percent c && is_s d); [lia|]. exact IH.
Qed.

(** When the placeholder a template ends in is its only one, substitution
    puts the argument after the prefix. *)
Lemma substitute_suffix p arg :
  placeholders (p ++ "%s") = 1 -> substitute (p ++ "%s") arg = p ++ arg.
Proof.
  induction p as [|c p IH]; intros H1.
  - change (arg ++ "" = arg). apply append_empty_r.
  - destruct p as [|d p].
    + change (String c "" ++ "%s") with (String c (String "%" "s")).
      rewrite substitute_cons.
      replace (is_s "%") with false by reflexivity.
      rewrite andb_false_r. simpl. rewrite append_empty_r. reflexivity.
    + change (String c (String d p) ++ "%s")
        with (String c (String d (p ++ "%s"))) in *.
      rewrite placeholders_cons in H1. rewrite substitute_cons.
      destruct (is_percent c && is_s d).
      * pose proof (placeholders_suffix p). lia.
      * change (String d (p ++ "%s")) with (String d p ++ "%s").
        rewrite (IH H1). reflexivity.
Qed.

Lemma expand_suffix p arg :
  placeholders (p ++ "%s") = 1 -> expand (p ++ "%s") arg = Some (p ++ arg).
Proof.
  intros H1. unfold expand. rewrite H1. simpl.
  rewrite (substitute_suffix p arg H1). reflexivity.
Qed.

Lemma expand_bare arg : expand "%s" arg = Some arg.
Proof. apply (expand_suffix "" arg). reflexivity. Qed.

End Templates.

(** C2. In the loaded configuration, the URL template and the label template
    of every entry of [extlinks] hold exactly one placeholder. *)
Theorem extlinks_single_placeholder ns0 c tag url_template label_template :
  load ns0 = Some c ->
  extlinks c !! tag = Some (url_template, label_template) ->
  Template.placeholders url_template = 1
  /\ Template.placeholders label_template = 1.
Proof.
  rewrite load_eq. intros [= <-]. simpl.
  intros H.
  apply lookup_insert_Some in H as [[_ [= <- <-]]|[_ H]]; [split; reflexivity|].
  apply lookup_insert_Some in H as [[_ [= <- <-]]|[_ H]]; [split; reflexivity|].
  rewrite lookup_empty in H. discriminate.
Qed.

Lemma extlinks_single_placeholder_witness :
  Template.placeholders
    "https://github.com/modelcontextprotocol/python-sdk/blob/main/%s" = 1
  /\ Template.placeholders "%s" = 1.
Proof.
  apply (extlinks_single_placeholder ∅ build_config "github").
  - vm_compute. reflexivity.
  - vm_compute. reflexivity.
Defined.

(** C3. Resolution substitutes the argument for the single placeholder of
    each template: for a tag whose templates are a prefix followed by the
    placeholder, and the bare placeholder, resolving it with an argument
    gives the prefix followed by the argument as URL and the argument as
    label. *)
Theorem resolve_substitutes_argument
    (links : gmap string (string * string)) (tag prefix arg : string) :
  links !! tag = Some (prefix ++ "%s", "%s") ->
  Template.placeholders (prefix ++ "%s") = 1 ->
  Template.resolve links tag arg = Some (prefix ++ arg, arg).
Proof.
  intros Hl H1. unfold Template.resolve. rewrite Hl. simpl.
  rewrite (expand_suffix prefix arg H1). simpl.
  rewrite append_empty_r. reflexivity.
Qed.

(** The scenario of the specification, as an instance. *)
Lemma resolve_github_readme :
  Template.resolve
    (<["github" := ("https://github.com/org/repo/blob/main/%s", "%s")]> ∅)
    "github" "README.md"
  = Some ("https://github.com/org/repo/blob/main/README.md", "README.md").
Proof.
  apply (resolve_substitutes_argument
           (<["github" := ("https://github.com/org/repo/blob/main/%s", "%s")]> ∅)
           "github" "https://github.com/org/repo/blob/main/" "README.md").
  - vm_compute. reflexivity.
  - vm_compute. reflexivity.
Defined.

(** C10. Every label template of the loaded [extlinks] is the bare
    placeholder, so resolving any of its tags with any argument gives that
    argument as label. *)
Theorem extlinks_label_is_argument ns0 c tag url_template label_template arg :
  load ns0 = Some c ->
  extlinks c !! tag = Some (url_template, label_template) ->
  label_template = "%s"
  /\ Template.expand label_template arg = Some arg
  /\ exists url, Template.resolve (extlinks c) tag arg = Some (url, arg).
Proof.
  rewrite load_eq. intros [= <-]. intros H.
  assert (Hcases :
    (url_template = "https://github.com/modelcontextprotocol/python-sdk/blob/main/" ++ "%s"
     \/ url_template = "https://modelcontextprotocol.io/" ++ "%s")
    /\ label_template = "%s").
  { simpl in H.
    apply lookup_insert_Some in H as [[_ [= <- <-]]|[_ H]]; [split; [right|]; reflexivity|].
    apply lookup_insert_Some in H as [[_ [= <- <-]]|[_ H]]; [split; [left|]; reflexivity|].
    rewrite lookup_empty in H. discriminate. }
  destruct Hcases as [Hu ->].
  split; [reflexivity|]. split; [apply expand_bare|].
  unfold Template.resolve. rewrite H. simpl.
  destruct Hu as [-> | ->].
  - rewrite expand_suffix by reflexivity. simpl. rewrite append_empty_r.
    eexists. reflexivity.
  - rewrite expand_suffix by reflexivity. simpl. rewrite append_empty_r.
    eexists. reflexivity.
Qed.

Lemma extlinks_label_is_argument_witness :
  "%s" = "%s"
  /\ Template.expand "%s" "index" = Some "index"
  /\ exists url,
       Template.resolve (extlinks build_config) "spec" "index"
       = Some (url, "index").
Proof.
  apply (extlinks_label_is_argument ∅ build_config "spec"
           "https://modelcontextprotocol.io/%s" "%s" "index").
  - vm_compute. reflexivity.
  - vm_compute. reflexivity.
Defined.

(** ** Cross-project inventories *)

(** C4. In the loaded configuration, an entry of [intersphinx_mapping]
    without an inventory path has its inventory at the base URL followed by
    [/objects.inv]; the entry for [python] is such an entry, with base URL
    [https://docs.python.org/3], so its inventory is at
    [https://docs.python.org/3/objects.inv]. *)
Theorem inventory_fetched_from_base_url ns0 c :
  load ns0 = Some c ->
  (forall name base inventory,
      intersphinx_mapping c !! name = Some (base, inventory) ->
      inventory = None
      /\ Intersphinx.inventory_url (base, inventory) = base ++ "/objects.inv")
  /\ intersphinx_mapping c !! "python" = Some ("https://docs.python.org/3", None)
  /\ Intersphinx.inventory_url ("https://docs.python.org/3", None)
     = "https://docs.python.org/3/objects.inv".
Proof.
  rewrite load_eq. intros [= <-]. simpl. split; [|split; reflexivity].
  intros name base inventory H.
  apply lookup_insert_Some in H as [[_ [= <- <-]]|[_ H]]; [split; reflexivity|].
  apply lookup_insert_Some in H as [[_ [= <- <-]]|[_ H]]; [split; reflexivity|].
  rewrite lookup_empty in H. discriminate.
Qed.

Lemma inventory_fetched_from_base_url_witness :
  (forall name base inventory,
      intersphinx_mapping build_config !! name = Some (base, inventory) ->
      inventory = None
      /\ Intersphinx.inventory_url (base, inventory) = base ++ "/objects.inv")
  /\ intersphinx_mapping build_config !! "python"
     = Some ("https://docs.python.org/3", None)
  /\ Intersphinx.inventory_url ("https://docs.python.org/3", None)
     = "https://docs.python.org/3/objects.inv".
Proof.
  apply (inventory_fetched_from_base_url ∅ build_config).
  vm_compute. reflexivity.
Defined.

(** ** Extensions *)

(** C5. The extension list of the loaded configuration holds exactly three
    identifiers, in this order: API documentation from source comments,
    source code links, structured docstrings. *)
Theorem extensions_three_capabilities ns0 c :
  load ns0 = Some c ->
  extensions c
  = map Capability.identifier
      [ Capability.ApiDocsFromSourceComments;
        Capability.SourceCodeLinks;
        Capability.StructuredDocstrings ]
  /\ extensions c
     = [ "sphinx.ext.autodoc"; "sphinx.ext.viewcode"; "sphinx.ext.napoleon" ]
  /\ length (extensions c) = 3.
Proof.
  rewrite load_eq. intros [= <-]. repeat split; reflexivity.
Qed.

Lemma extensions_three_capabilities_witness :
  extensions build_config
  = map Capability.identifier
      [ Capability.ApiDocsFromSourceComments;
        Capability.SourceCodeLinks;
        Capability.StructuredDocstrings ]
  /\ extensions build_config
     = [ "sphinx.ext.autodoc"; "sphinx.ext.viewcode"; "sphinx.ext.napoleon" ]
  /\ length (extensions build_config) = 3.
Proof.
  apply (extensions_three_capabilities ∅ build_config).
  vm_compute. reflexivity.
Defined.

(** ** Deployment settings *)

(** C7. The loaded configuration gives the base URL [/mcp_docs/], a path
    from the root of the host, and lists the marker file [.nojekyll] among
    the extra paths. *)
Theorem baseurl_and_nojekyll ns0 c :
  load ns0 = Some c ->
  html_baseurl c = "/mcp_docs/"
  /\ String.prefix "/" (html_baseurl c) = true
  /\ In ".nojekyll" (html_extra_path c).
Proof.
  rewrite load_eq. intros [= <-]. simpl.
  split; [reflexivity|]. split; [reflexivity|]. left. reflexivity.
Qed.

Lemma baseurl_and_nojekyll_witness :
  html_baseurl build_config = "/mcp_docs/"
  /\ String.prefix "/" (html_baseurl build_config) = true
  /\ In ".nojekyll" (html_extra_path build_config).
Proof.
  apply (baseurl_and_nojekyll ∅ build_config).
  vm_compute. reflexivity.
Defined.

(** ** Base URLs *)

(** C8. In the loaded configuration, the base URL of every entry of
    [intersphinx_mapping] is a syntactically valid URL. *)
Theorem intersphinx_base_urls_valid ns0 c name base inventory :
  load ns0 = Some c ->
  intersphinx_mapping c !! name = Some (base, inventory) ->
  Url.valid base = true.
Proof.
  rewrite load_eq. intros [= <-]. simpl. intros H.
  apply lookup_insert_Some in H as [[_ [= <- <-]]|[_ H]]; [reflexivity|].
  apply lookup_insert_Some in H as [[_ [= <- <-]]|[_ H]]; [reflexivity|].
  rewrite lookup_empty in H. discriminate.
Qed.

Lemma intersphinx_base_urls_valid_witness :
  Url.valid "https://www.starlette.io/" = true.
Proof.
  apply (intersphinx_base_urls_valid ∅ build_config "starlette"
           "https://www.starlette.io/" None).
  - vm_compute. reflexivity.
  - vm_compute. reflexivity.
Defined.

(** ** Exclusion patterns *)

Section Globs.

Import Glob.

(** Every directory above a path is a prefix of it that a separator
    follows. *)
Lemma ancestors_prefix s x :
  In x (ancestors s) -> exists y, s = x ++ String "/" y.
Proof.
  revert x. induction s as [|c s IH]; intros x; simpl; [tauto|].
  intros Hin. apply in_app_or in Hin as [Hin|Hin].
  - destruct (is_sep c) eqn:Hc; simpl in Hin; [|tauto].
    destruct Hin as [<-|[]].
    apply Ascii.eqb_eq in Hc as ->. exists s. reflexivity.
  - apply in_map_iff in Hin as [x' [<- Hin]].
    destruct (IH x' Hin) as [y ->]. exists y. reflexivity.
Qed.

(** A pattern that matches neither a path nor any prefix of it that a
    separator follows does not exclude the path. *)
Lemma excludes_false p path :
  matches p path = false ->
  (forall x y, path = x ++ String "/" y -> matches p x = false) ->
  excludes p path = false.
Proof.
  intros Hm Hpre. unfold excludes. rewrite Hm. simpl.
  destruct (existsb (matches p) (ancestors path)) eqn:He; [|reflexivity].
  apply existsb_exists in He as [x [Hin Hx]].
  apply ancestors_prefix in Hin as [y Hy].
  rewrite (Hpre x y Hy) in Hx. discriminate.
Qed.

End Globs.

(** Settles a goal [matches p x = false] where [x] is a directory above a
    path whose first characters are known and differ from the pattern's. *)
Ltac prefix_mismatch x H :=
  destruct x as [|? [|? x]]; cbv [append] in H;
  [ discriminate H | discriminate H | inversion H; subst; reflexivity ].

(** C6. In the loaded configuration, no pattern of [exclude_patterns]
    excludes a path of [templates_path] or [html_static_path], nor anything
    under such a path. *)
Theorem exclude_patterns_spare_assets ns0 c p q :
  load ns0 = Some c ->
  In p (exclude_patterns c) ->
  In q (templates_path c ++ html_static_path c)%list ->
  Glob.excludes p q = false
  /\ forall rest, Glob.excludes p (q ++ "/" ++ rest) = false.
Proof.
  rewrite load_eq. intros [= <-]. simpl. intros Hp Hq.
  destruct Hp as [<-|[<-|[<-|[]]]]; destruct Hq as [<-|[<-|[]]];
    (split; [reflexivity|]; intros rest; apply excludes_false;
     [reflexivity|intros x y Hxy; prefix_mismatch x Hxy]).
Qed.

Lemma exclude_patterns_spare_assets_witness :
  Glob.excludes "Thumbs.db" "_static" = false
  /\ forall rest, Glob.excludes "Thumbs.db" ("_static" ++ "/" ++ rest) = false.
Proof.
  apply (exclude_patterns_spare_assets ∅ build_config "Thumbs.db" "_static").
  - vm_compute. reflexivity.
  - simpl. right. left. reflexivity.
  - simpl. right. left. reflexivity.
Defined.

(** ** Checks on concrete inputs *)

(** A template with two placeholders, or with none, is not expanded. *)
Example expand_two_placeholders : Template.expand "%s/%s" "a" = None.
Proof. reflexivity. Qed.

Example expand_no_placeholder : Template.expand "index.html" "a" = None.
Proof. reflexivity. Qed.

(** The build directory and what lies under it are excluded. *)
Example excludes_build_output :
  Glob.excludes "_build" "_build/html/index.html" = true.
Proof. reflexivity. Qed.

Example ancestors_of_file : Glob.ancestors "a/b/c" = ["a"; "a/b"].
Proof. reflexivity. Qed.

Example invalid_urls :
  map Url.valid ["docs.python.org"; "https:/x"; "http://"; "http://a b"]
  = [false; false; false; false].
Proof. reflexivity. Qed.

(** A percent sign needs its two hexadecimal digits, a port its digits. *)
Example percent_and_port_urls :
  map Url.valid
    [ "https://modelcontextprotocol.io/%zz"; "https://modelcontextprotocol.io/%2";
      "https://modelcontextprotocol.io/a%20b"; "http://a:b:c";
      "http://localhost:8000/docs" ]
  = [false; false; true; false; true].
Proof. reflexivity. Qed.

(** * Further properties of the module *)

(** ** Reordering the statements *)

Section Reordering.

Implicit Types (body : list stmt) (ns : gmap string value) (name : string).

(** Statements that assign distinct names from constant right-hand sides
    commute. *)
Lemma exec_permutation body1 body2 :
  NoDup (map fst body1) ->
  Forall (fun st => constant st.2) body1 ->
  Permutation body1 body2 ->
  forall ns, exec body1 ns = exec body2 ns.
Proof.
  intros Hnd1 Hc1 Hperm ns.
  assert (Hnd2 : NoDup (map fst body2)).
  { rewrite <- Hperm. exact Hnd1. }
  assert (Hc2 : Forall (fun st => constant st.2) body2).
  { rewrite Forall_forall in Hc1 |- *. intros st Hin. apply Hc1.
    rewrite <- Hperm in Hin. exact Hin. }
  apply map_eq. intros name.
  rewrite (exec_lookup body1 Hc1), (exec_lookup body2 Hc2).
  destruct (last_assigned name body1) as [e1|] eqn:E1;
    destruct (last_assigned name body2) as [e2|] eqn:E2; [| | |reflexivity].
  - apply last_assigned_In in E2.
    apply (Permutation_in _ (Permutation_sym Hperm)) in E2.
    rewrite (last_assigned_unique body1 name e2 Hnd1 E2) in E1.
    injection E1 as <-. reflexivity.
  - apply last_assigned_In in E1.
    apply (Permutation_in _ Hperm) in E1.
    rewrite (last_assigned_unique body2 name e1 Hnd2 E1) in E2. discriminate.
  - apply last_assigned_In in E2.
    apply (Permutation_in _ (Permutation_sym Hperm)) in E2.
    rewrite (last_assigned_unique body1 name e2 Hnd1 E2) in E1. discriminate.
Qed.

End Reordering.

(** X3. The order of the statements of the module does not matter: any
    rearrangement of them leaves the same namespace, hence loads the same
    configuration. *)
Theorem conf_order_irrelevant body ns0 :
  Permutation conf body ->
  exec body ns0 = exec conf ns0
  /\ read_config (exec body ns0) = Some build_config.
Proof.
  intros Hperm.
  assert (He : exec body ns0 = exec conf ns0).
  { symmetry. apply exec_permutation;
      [apply conf_NoDup|apply conf_constant|exact Hperm]. }
  split; [exact He|]. rewrite He. apply read_config_exec_conf.
Qed.

Lemma conf_order_irrelevant_witness :
  exec (rev conf) ∅ = exec conf ∅
  /\ read_config (exec (rev conf) ∅) = Some build_config.
Proof.
  apply (conf_order_irrelevant (rev conf) ∅).
  apply Permutation_rev.
Defined.

(** ** What the exclusion patterns exclude *)

Section LiteralPatterns.

Import Glob.

(** Every prefix of a path that a separator follows is a directory above
    it. *)
Lemma ancestors_complete x y : In x (ancestors (x ++ String "/" y)).
Proof.
  induction x as [|c x IH].
  - change ("" ++ String "/" y) with (String "/" y). simpl. left. reflexivity.
  - change (String c x ++ String "/" y) with (String c (x ++ String "/" y)).
    simpl. apply in_or_app. right. apply in_map. exact IH.
Qed.

(** A pattern without wildcards matches itself and nothing else. *)
Lemma matches_literal p :
  literal_pattern p = true -> forall s, matches p s = true <-> s = p.
Proof.
  unfold literal_pattern.
  induction p as [|c p IH]; simpl; intros Hl s.
  - destruct s; split; intros H; try reflexivity; discriminate.
  - apply andb_true_iff in Hl as [Hc Hl].
    apply andb_true_iff in Hc as [Hstar Hq].
    apply negb_true_iff in Hstar, Hq. rewrite Hstar, Hq.
    destruct s as [|d s]; [split; intros H; discriminate|].
    rewrite andb_true_iff, Ascii.eqb_eq, (IH Hl s).
    split; [intros [-> ->]; reflexivity|intros [= -> ->]; split; reflexivity].
Qed.

(** Such a pattern excludes the path of that name and what lies under
    it. *)
Lemma excludes_literal p path :
  literal_pattern p = true ->
  excludes p path = true
  <-> path = p \/ exists rest, path = p ++ "/" ++ rest.
Proof.
  intros Hl. unfold excludes. rewrite orb_true_iff, (matches_literal p Hl).
  split; (intros [H|H]; [left; exact H|right]).
  - apply existsb_exists in H as [x [Hin Hx]].
    apply (matches_literal p Hl) in Hx as ->.
    apply ancestors_prefix in Hin as [y ->]. exists y. reflexivity.
  - destruct H as [rest ->]. apply existsb_exists. exists p.
    split; [apply ancestors_complete|]. apply (matches_literal p Hl). reflexivity.
Qed.

End LiteralPatterns.

(** X4. The loaded exclusion patterns are free of wildcards, so a path is
    excluded exactly when it is [_build], [Thumbs.db] or [.DS_Store] at the
    top of the source directory, or lies under a directory of one of those
    names. *)
Theorem excluded_paths_characterised ns0 c path :
  load ns0 = Some c ->
  excluded_by (exclude_patterns c) path = true
  <-> exists p,
        In p [ "_build"; "Thumbs.db"; ".DS_Store" ]
        /\ (path = p \/ exists rest, path = p ++ "/" ++ rest).
Proof.
  rewrite load_eq. intros [= <-]. unfold excluded_by. simpl exclude_patterns.
  rewrite existsb_exists. split.
  - intros [p [Hin Hex]]. exists p. split; [exact Hin|].
    apply excludes_literal; [|exact Hex].
    simpl in Hin. destruct Hin as [<-|[<-|[<-|[]]]]; reflexivity.
  - intros [p [Hin Hex]]. exists p. split; [exact Hin|].
    apply excludes_literal; [|exact Hex].
    simpl in Hin. destruct Hin as [<-|[<-|[<-|[]]]]; reflexivity.
Qed.

Lemma excluded_paths_characterised_witness :
  excluded_by (exclude_patterns build_config) "_static/Thumbs.db" = true
  <-> exists p,
        In p [ "_build"; "Thumbs.db"; ".DS_Store" ]
        /\ ("_static/Thumbs.db" = p
            \/ exists rest, "_static/Thumbs.db" = p ++ "/" ++ rest).
Proof.
  apply (excluded_paths_characterised ∅ build_config "_static/Thumbs.db").
  vm_compute. reflexivity.
Defined.

(** ** What the configured links resolve to *)

Section ResolvedLinks.

Import Template Url.

Lemma list_ascii_of_string_app a b :
  list_ascii_of_string (a ++ b)
  = (list_ascii_of_string a ++ list_ascii_of_string b)%list.
Proof.
  induction a as [|c a IH]; [reflexivity|].
  change (String c a ++ b) with (String c (a ++ b)). simpl.
  rewrite IH. reflexivity.
Qed.

(** None of [?], [#] and [%] is a path character, so the scan stays in a
    path as long as it reads path characters. *)
Lemma step_path_char c : path_char c = true -> step Path c = Path.
Proof.
  intros Hc. unfold step.
  destruct (Ascii.eqb_spec c "?") as [->|_]; [discriminate Hc|].
  destruct (Ascii.eqb_spec c "#") as [->|_]; [discriminate Hc|].
  destruct (Ascii.eqb_spec c "%") as [->|_]; [discriminate Hc|].
  rewrite Hc. reflexivity.
Qed.

Lemma scan_path_chars cs :
  forallb path_char cs = true -> fold_left step cs Path = Path.
Proof.
  induction cs as [|c cs IH]; [reflexivity|].
  intros H. cbn [forallb] in H. apply andb_true_iff in H as [Hc Hcs].
  change (fold_left step cs (step Path c) = Path).
  rewrite (step_path_char c Hc). apply IH, Hcs.
Qed.

(** A URL that has reached its path stays valid when path characters
    follow. *)
Lemma valid_path_extension prefix arg :
  fold_left step (list_ascii_of_string prefix) Start = Path ->
  forallb path_char (list_ascii_of_string arg) = true ->
  valid (prefix ++ arg) = true.
Proof.
  intros Hp Ha. unfold valid.
  rewrite list_ascii_of_string_app, fold_left_app, Hp.
  rewrite (scan_path_chars _ Ha). reflexivity.
Qed.

(** Resolution through the configured links, tag by tag. *)
Lemma resolve_build_config tag arg :
  resolve (extlinks build_config) tag arg
  = if String.eqb tag "github" then
      Some ("https://github.com/modelcontextprotocol/python-sdk/blob/main/"
              ++ arg, arg)
    else if String.eqb tag "spec" then
      Some ("https://modelcontextprotocol.io/" ++ arg, arg)
    else None.
Proof.
  unfold resolve. simpl extlinks.
  destruct (String.eqb_spec tag "github") as [->|Hg].
  - rewrite lookup_insert_ne by discriminate. rewrite lookup_insert_eq. simpl.
    rewrite !append_empty_r. reflexivity.
  - destruct (String.eqb_spec tag "spec") as [->|Hs].
    + rewrite lookup_insert_eq. simpl.
      rewrite !append_empty_r. reflexivity.
    + rewrite lookup_insert_ne by congruence.
      rewrite lookup_insert_ne by congruence.
      rewrite lookup_empty. reflexivity.
Qed.

End ResolvedLinks.

(** X5. Through the loaded link table, the tag [github] resolves an argument
    to that path of the SDK repository's main branch, the tag [spec] to that
    path of the protocol site, each with the argument as label; every other
    tag is unknown and resolves to nothing. *)
Theorem resolve_loaded_extlinks ns0 c tag arg :
  load ns0 = Some c ->
  Template.resolve (extlinks c) tag arg
  = if String.eqb tag "github" then
      Some ("https://github.com/modelcontextprotocol/python-sdk/blob/main/"
              ++ arg, arg)
    else if String.eqb tag "spec" then
      Some ("https://modelcontextprotocol.io/" ++ arg, arg)
    else None.
Proof.
  rewrite load_eq. intros [= <-]. apply resolve_build_config.
Qed.

Lemma resolve_loaded_extlinks_witness :
  Template.resolve (extlinks build_config) "issue" "42" = None.
Proof.
  apply (resolve_loaded_extlinks ∅ build_config "issue" "42").
  vm_compute. reflexivity.
Defined.

(** X6. Whatever tag of the loaded link table is resolved, an argument made
    of unreserved characters, sub-delimiters, [:], [@] and [/] gives a
    syntactically valid URL. *)
Theorem resolved_url_valid ns0 c tag arg url label :
  load ns0 = Some c ->
  forallb Url.path_char (list_ascii_of_string arg) = true ->
  Template.resolve (extlinks c) tag arg = Some (url, label) ->
  Url.valid url = true.
Proof.
  rewrite load_eq. intros [= <-] Harg. rewrite resolve_build_config.
  destruct (String.eqb tag "github").
  - intros [= <- _]. apply valid_path_extension; [reflexivity|exact Harg].
  - destruct (String.eqb tag "spec"); [|discriminate].
    intros [= <- _]. apply valid_path_extension; [reflexivity|exact Harg].
Qed.

Lemma resolved_url_valid_witness :
  Url.valid
    "https://github.com/modelcontextprotocol/python-sdk/blob/main/README.md"
  = true.
Proof.
  apply (resolved_url_valid ∅ build_config "github" "README.md"
           "https://github.com/modelcontextprotocol/python-sdk/blob/main/README.md"
           "README.md").
  - vm_compute. reflexivity.
  - vm_compute. reflexivity.
  - vm_compute. reflexivity.
Defined.
